(** * Lazy-tensor IR core and nested flash-attention backward entry point

    A shallow embedding of

    - [torch/csrc/lazy/core/ir.cpp]: the dynamic-shape switch, the
      process-wide trace buffer, the two [Node] constructors and the edge
      types [Output] and [Value];
    - [aten/src/ATen/native/nested/cuda/NestedTensorTransformerFunctionsBackward.cpp]:
      [_scaled_dot_product_flash_attention_backward_nested].

    Process-wide state (statics, the environment, the command-line flag) is
    threaded explicitly.  What the two translation units only use through
    headers that are not part of the sources at hand ([hash.h], [ir.h],
    [ir_metadata.h], the ATen operators) is taken as a section variable. *)

From Stdlib Require QArith.
From stdpp Require Import base option list strings pretty gmap.

(** ** namespace torch::lazy *)
Module Lazy.

(** *** The dynamic-shape switch *)

(** The part of the process that [Node::enableDynamicShape] looks at:
    the environment block, the flag defined by
    [C10_DEFINE_bool(ltc_enable_dynamic_shapes, false, ...)], and the
    function-local [static bool enabled], which is [None] until the first
    call has run its initialiser. *)
Record Process : Type := mkProcess {
  environ : gmap string string;
  FLAGS_ltc_enable_dynamic_shapes : bool;
  enabled : option bool
}.

Definition getenv (name : string) (p : Process) : option string :=
  environ p !! name.

(** A process as the loader leaves it: the flag has its default [false],
    the static is not initialised yet. *)
Definition start (env : gmap string string) : Process :=
  {| environ := env; FLAGS_ltc_enable_dynamic_shapes := false; enabled := None |}.

(** [std::getenv("LTC_ENABLE_DYNAMIC_SHAPES") != nullptr] *)
Definition env_toggle (p : Process) : bool :=
  match getenv "LTC_ENABLE_DYNAMIC_SHAPES" p with
  | Some _ => true
  | None => false
  end.

(** [bool Node::enableDynamicShape()]: the initialiser of the static runs
    on the first call only; the flag is read on every call. *)
Definition enableDynamicShape (p : Process) : bool * Process :=
  let e := match enabled p with
           | Some b => b
           | None => env_toggle p
           end in
  (e || FLAGS_ltc_enable_dynamic_shapes p,
   {| environ := environ p;
      FLAGS_ltc_enable_dynamic_shapes := FLAGS_ltc_enable_dynamic_shapes p;
      enabled := Some e |}).

(** What the rest of the program can do to that state between calls. *)
Inductive Action : Type :=
| Setenv (name value : string)
| Unsetenv (name : string)
| SetFlag (b : bool)
| Call.

Definition step (a : Action) (p : Process) : Process :=
  match a with
  | Setenv name value =>
      {| environ := <[name := value]> (environ p);
         FLAGS_ltc_enable_dynamic_shapes := FLAGS_ltc_enable_dynamic_shapes p;
         enabled := enabled p |}
  | Unsetenv name =>
      {| environ := delete name (environ p);
         FLAGS_ltc_enable_dynamic_shapes := FLAGS_ltc_enable_dynamic_shapes p;
         enabled := enabled p |}
  | SetFlag b =>
      {| environ := environ p;
         FLAGS_ltc_enable_dynamic_shapes := b;
         enabled := enabled p |}
  | Call => snd (enableDynamicShape p)
  end.

Definition run (acts : list Action) (p : Process) : Process :=
  foldl (fun q a => step a q) p acts.

(** The process right after its first call of [enableDynamicShape],
    followed by an arbitrary continuation. *)
Definition after_first_call (p : Process) (rest : list Action) : Process :=
  run rest (snd (enableDynamicShape p)).

(** *** IR nodes, edges and the trace buffer *)

(** [size_t].  The values of this type that the code computes are vector
    sizes; no arithmetic is done on them. *)
Definition size_t : Type := N.

(** [OpKind] wraps an interned symbol, carried here as its qualified name. *)
Record OpKind : Type := mkOpKind { op : string }.

Section IR.

(** From [hash.h]: the hash type with its equality, [HashCombine], [Hash]
    on a [size_t], and [StdHashCombine]. *)
Context {hash_t : Type}.
Context `{EqDecision hash_t}.
Variable HashCombine : hash_t -> hash_t -> hash_t.
Variable Hash : size_t -> hash_t.
Variable StdHashCombine : Z -> size_t -> size_t.

(** From [ir_metadata.h]: the debug metadata and the function that
    captures it from state this file does not otherwise look at. *)
Context {MetaData : Type}.
Context {DebugContext : Type}.
Variable GetMetaDataIfDebugging : DebugContext -> MetaData.

(** The data members that the constructors initialise. *)
Record Node : Type := mkNode {
  op_ : OpKind;
  num_outputs_ : size_t;
  node_hash_ : hash_t;
  dag_hash_without_sizes_ : hash_t;
  dag_hash_with_sizes_ : hash_t;
  metadata_ : MetaData;
  node_list_index_ : size_t
}.

(** [Node::hash() const] is declared in [ir.h]. *)
Variable Node_hash : Node -> hash_t.

(** A pointer to a node, raw ([const Node*]) or shared ([NodePtr]): the
    address of the object and the object found there.  A node is not
    written to after its construction, so the pointee is carried along
    with the address. *)
Record NodePtr : Type := mkNodePtr {
  address : Z;
  get : Node
}.

Record Output : Type := mkOutput {
  Output_node : NodePtr;
  Output_index : size_t
}.

Record Value : Type := mkValue {
  Value_node : NodePtr;
  Value_index : size_t
}.

(** [Output::Hasher::operator()] *)
Definition Output_Hasher (output : Output) : size_t :=
  StdHashCombine (address (Output_node output)) (Output_index output).

(** What [Output::operator==] hands to [printf], before formatting. *)
Record Printed : Type := mkPrinted {
  printed_lhs_hash : hash_t;
  printed_rhs_hash : hash_t;
  printed_lhs_index : size_t;
  printed_rhs_index : size_t
}.

(** [bool Output::operator==(const Value& rhs) const]: the [printf], then
    [return false;]. *)
Definition Output_eq (o : Output) (rhs : Value) : Printed * bool :=
  ({| printed_lhs_hash := Node_hash (get (Output_node o));
      printed_rhs_hash := Node_hash (get (Value_node rhs));
      printed_lhs_index := Output_index o;
      printed_rhs_index := Value_index rhs |},
   false).

(** The second [return] of [Output::operator==], which stands after
    [return false;] and is never reached. *)
Definition Output_eq_unreachable (o : Output) (rhs : Value) : bool :=
  bool_decide (Node_hash (get (Output_node o)) = Node_hash (get (Value_node rhs)))
  && bool_decide (Output_index o = Value_index rhs).

(** [hash_t Output::hash() const] *)
Definition Output_hash (o : Output) : hash_t :=
  HashCombine (Node_hash (get (Output_node o))) (Hash (Output_index o)).

(** [hash_t Value::hash() const] *)
Definition Value_hash (v : Value) : hash_t :=
  HashCombine (Node_hash (get (Value_node v))) (Hash (Value_index v)).

(** The process-wide state: the dynamic-shape switch, what the metadata
    capture reads, and the two static vectors. *)
Record World : Type := mkWorld {
  process : Process;
  debug : DebugContext;
  node_list : list NodePtr;
  last_node_list : list NodePtr
}.

Definition initial (env : gmap string string) (d : DebugContext) : World :=
  {| process := start env; debug := d; node_list := []; last_node_list := [] |}.

(** [size_t Node::NextNodeListIndex()] *)
Definition NextNodeListIndex (w : World) : size_t :=
  N.of_nat (length (node_list w)).

(** [void Node::PushIntoNodeList(NodePtr node)] *)
Definition PushIntoNodeList (node : NodePtr) (w : World) : World :=
  {| process := process w;
     debug := debug w;
     node_list := node_list w ++ [node];
     last_node_list := last_node_list w |}.

(** [last_node_list.clear()] *)
Definition clear_last_node_list (w : World) : World :=
  {| process := process w;
     debug := debug w;
     node_list := node_list w;
     last_node_list := [] |}.

(** [std::swap(last_node_list, node_list)] *)
Definition swap_node_lists (w : World) : World :=
  {| process := process w;
     debug := debug w;
     node_list := last_node_list w;
     last_node_list := node_list w |}.

(** [void Node::ClearNodeList()] *)
Definition ClearNodeList (w : World) : World :=
  swap_node_lists (clear_last_node_list w).

(** [Node::Node(OpKind, size_t, hash_t node_hash, std::function<hash_t(bool)> dag_hash_fn)].
    A hash callback is a function of its flag. *)
Definition Node_explicit (op : OpKind) (num_outputs : size_t)
    (node_hash : hash_t) (dag_hash_fn : bool -> hash_t) (w : World)
  : Node * World :=
  ({| op_ := op;
      num_outputs_ := num_outputs;
      node_hash_ := node_hash;
      dag_hash_without_sizes_ := dag_hash_fn false;
      dag_hash_with_sizes_ := dag_hash_fn true;
      metadata_ := GetMetaDataIfDebugging (debug w);
      node_list_index_ := NextNodeListIndex w |},
   w).

(** [Node::Node(OpKind, size_t, std::function<hash_t(bool)> node_hash_fn)].
    The call of [enableDynamicShape] may initialise its static. *)
Definition Node_derived (op : OpKind) (num_outputs : size_t)
    (node_hash_fn : bool -> hash_t) (w : World)
  : Node * World :=
  let '(dynamic, p) := enableDynamicShape (process w) in
  ({| op_ := op;
      num_outputs_ := num_outputs;
      node_hash_ := node_hash_fn (negb dynamic);
      dag_hash_without_sizes_ := node_hash_fn false;
      dag_hash_with_sizes_ := node_hash_fn true;
      metadata_ := GetMetaDataIfDebugging (debug w);
      node_list_index_ := NextNodeListIndex w |},
   {| process := p;
      debug := debug w;
      node_list := node_list w;
      last_node_list := last_node_list w |}).

(** A constructor call with its arguments. *)
Inductive Ctor : Type :=
| Explicit (op : OpKind) (num_outputs : size_t) (node_hash : hash_t)
    (dag_hash_fn : bool -> hash_t)
| Derived (op : OpKind) (num_outputs : size_t) (node_hash_fn : bool -> hash_t).

Definition construct (c : Ctor) (w : World) : Node * World :=
  match c with
  | Explicit op num_outputs node_hash dag_hash_fn =>
      Node_explicit op num_outputs node_hash dag_hash_fn w
  | Derived op num_outputs node_hash_fn =>
      Node_derived op num_outputs node_hash_fn w
  end.

(** Constructor calls one after the other, nothing else in between. *)
Fixpoint construct_all (cs : list Ctor) (w : World) : list Node * World :=
  match cs with
  | [] => ([], w)
  | c :: cs' =>
      let '(n, w1) := construct c w in
      let '(ns, w2) := construct_all cs' w1 in
      (n :: ns, w2)
  end.

(** A traced construction, as a caller has to do it: the constructors do
    not call [PushIntoNodeList] (it takes the [NodePtr], which exists only
    once the node is built), so the caller builds the node, at the address
    [a] its allocation returned, and then pushes the new pointer. *)
Definition construct_and_push (a : Z) (c : Ctor) (w : World) : NodePtr * World :=
  let '(n, w1) := construct c w in
  let ptr := {| address := a; get := n |} in
  (ptr, PushIntoNodeList ptr w1).

Fixpoint trace (cs : list (Z * Ctor)) (w : World) : list NodePtr * World :=
  match cs with
  | [] => ([], w)
  | (a, c) :: cs' =>
      let '(ptr, w1) := construct_and_push a c w in
      let '(ptrs, w2) := trace cs' w1 in
      (ptr :: ptrs, w2)
  end.

(** *** Tracing sessions *)

(** The steps of a tracing client: build a node and push it, flush the
    buffer, or do something to the dynamic-shape state. *)
Inductive TraceOp : Type :=
| Build (a : Z) (c : Ctor)
| Flush
| Proc (act : Action).

Definition with_process (f : Process -> Process) (w : World) : World :=
  {| process := f (process w);
     debug := debug w;
     node_list := node_list w;
     last_node_list := last_node_list w |}.

Definition trace_step (o : TraceOp) (w : World) : World :=
  match o with
  | Build a c => snd (construct_and_push a c w)
  | Flush => ClearNodeList w
  | Proc act => with_process (step act) w
  end.

Definition session (ops : list TraceOp) (w : World) : World :=
  foldl (fun v o => trace_step o v) w ops.

(** The [node_list_index_] of the nodes a vector points to, in order. *)
Definition indices (l : list NodePtr) : list size_t :=
  (fun ptr => node_list_index_ (get ptr)) <$> l.

(** Every node of the vector sits at the position its index names. *)
Definition indexed_by_position (l : list NodePtr) : Prop :=
  indices l = N.of_nat <$> seq 0 (length l).

(** A continuation without its calls of [enableDynamicShape]. *)
Definition is_call (a : Action) : bool :=
  match a with
  | Call => true
  | _ => false
  end.

Definition without_calls (acts : list Action) : list Action :=
  filter (fun a => is_call a = false) acts.

(** *** Diagnostic strings *)

(** From [ir.h] and [ir_metadata.h]: the accessors [op()] and
    [num_outputs()], the text [operator<<] writes for an [OpKind], the
    members [scope] and [frame_info] of the metadata, and the text
    [EmitShortFrameInfo] writes to the stream it is given. *)
Variable Node_op : Node -> OpKind.
Variable Node_num_outputs : Node -> size_t.
Variable OpKind_text : OpKind -> string.
Variable scope : MetaData -> string.
Context {FrameInfo : Type}.
Variable frame_info : MetaData -> FrameInfo.
Variable EmitShortFrameInfo : FrameInfo -> string.

(** [std::string::empty()] *)
Definition empty (s : string) : bool :=
  match s with
  | EmptyString => true
  | String _ _ => false
  end.

(** [std::string Node::ToString() const].  A [size_t] goes to the stream
    in decimal. *)
Definition Node_ToString (n : Node) : string :=
  OpKind_text (Node_op n)
  +:+ (if (1 <? Node_num_outputs n)%N
       then ", num_outputs=" +:+ pretty (Node_num_outputs n)
       else EmptyString)
  +:+ (if negb (empty (scope (metadata_ n)))
       then ", scope=" +:+ scope (metadata_ n)
       else EmptyString)
  +:+ EmitShortFrameInfo (frame_info (metadata_ n)).

(** [std::string Output::ToString() const] *)
Definition Output_ToString (o : Output) : string :=
  Node_ToString (get (Output_node o)) +:+ ", index=" +:+ pretty (Output_index o).

(** *** Properties *)

Lemma step_enabled_Some (a : Action) (p : Process) (b : bool) :
  enabled p = Some b -> enabled (step a p) = Some b.
Proof.
  intros Hp. destruct a; simpl; try assumption.
  now rewrite Hp.
Qed.

Lemma run_enabled_Some (acts : list Action) (p : Process) (b : bool) :
  enabled p = Some b -> enabled (run acts p) = Some b.
Proof.
  revert p. induction acts as [|a acts IH]; intros p Hp; simpl.
  - exact Hp.
  - apply IH. now apply step_enabled_Some.
Qed.

(** Until the first call the static stays uninitialised: that is the case
    in a process that started with [start] and has only written to the
    environment and to the flag since. *)
Lemma run_before_first_call (acts : list Action) (p : Process) :
  enabled p = None -> Call ∉ acts -> enabled (run acts p) = None.
Proof.
  revert p. induction acts as [|a acts IH]; intros p Hp Hno; [exact Hp|].
  simpl. apply IH.
  - destruct a; try exact Hp. exfalso. apply Hno. left.
  - intros Hin. apply Hno. now right.
Qed.

Lemma first_call_records (p : Process) :
  enabled p = None ->
  enabled (snd (enableDynamicShape p)) = Some (env_toggle p).
Proof. intros Hp. unfold enableDynamicShape. simpl. now rewrite Hp. Qed.

Lemma later_call_result (p : Process) (rest : list Action) :
  enabled p = None ->
  fst (enableDynamicShape (after_first_call p rest))
  = env_toggle p || FLAGS_ltc_enable_dynamic_shapes (after_first_call p rest).
Proof.
  intros Hp. unfold after_first_call.
  pose proof (run_enabled_Some rest _ _ (first_call_records p Hp)) as Hr.
  revert Hr. generalize (run rest (snd (enableDynamicShape p))). intros q Hq.
  unfold enableDynamicShape. simpl. now rewrite Hq.
Qed.

(** The static keeps the value its initialiser gave it, whatever is in
    the rest of the run: the result of any later call is that value or'ed
    with the flag as it is then. *)
Lemma later_call_iff (p : Process) (rest : list Action) :
  enabled p = None ->
  fst (enableDynamicShape (after_first_call p rest)) = true <->
  is_Some (getenv "LTC_ENABLE_DYNAMIC_SHAPES" p)
  \/ FLAGS_ltc_enable_dynamic_shapes (after_first_call p rest) = true.
Proof.
  intros Hp. rewrite (later_call_result p rest Hp).
  rewrite orb_true_iff. unfold env_toggle.
  destruct (getenv "LTC_ENABLE_DYNAMIC_SHAPES" p) as [v|].
  - split; intros _; left; [by exists v | reflexivity].
  - split; (intros [Hc|Hf]; [|by right]).
    + discriminate.
    + by destruct Hc.
Qed.

(** C6: [enableDynamicShape()] is true exactly when the environment
    variable was present when the first call looked for it (whatever its
    value) or the flag is set at the time of the call.  This holds for the
    first call and for every call after it, whatever the program did to the
    environment and the flag in between; so a toggle that is present at
    the first call makes every later call return true, with the flag left
    at false too. *)
Theorem enableDynamicShape_env_or_flag (p : Process) (rest : list Action) :
  enabled p = None ->
  (fst (enableDynamicShape p) = true <->
     is_Some (getenv "LTC_ENABLE_DYNAMIC_SHAPES" p)
     \/ FLAGS_ltc_enable_dynamic_shapes p = true)
  /\ (fst (enableDynamicShape (after_first_call p rest)) = true <->
     is_Some (getenv "LTC_ENABLE_DYNAMIC_SHAPES" p)
     \/ FLAGS_ltc_enable_dynamic_shapes (after_first_call p rest) = true)
  /\ (is_Some (getenv "LTC_ENABLE_DYNAMIC_SHAPES" p) ->
      fst (enableDynamicShape p) = true
      /\ fst (enableDynamicShape (after_first_call p rest)) = true).
Proof.
  intros Hp.
  pose proof (later_call_iff p [] Hp) as Hfirst.
  pose proof (later_call_iff p rest Hp) as Hlater.
  assert (Hsame : fst (enableDynamicShape (after_first_call p [])) = fst (enableDynamicShape p)).
  { unfold after_first_call, run, enableDynamicShape. simpl. now rewrite Hp. }
  assert (Hflag : FLAGS_ltc_enable_dynamic_shapes (after_first_call p [])
                  = FLAGS_ltc_enable_dynamic_shapes p) by reflexivity.
  rewrite Hsame, Hflag in Hfirst.
  split; [exact Hfirst|]. split; [exact Hlater|].
  intros Henv. split; [apply Hfirst | apply Hlater]; now left.
Qed.

(** C9: when the variable is absent at the first call, every later call
    returns the flag as it is then, and nothing else: the continuation
    [rest] is arbitrary, so it may define the variable any number of
    times. *)
Theorem enableDynamicShape_env_absent_at_first_call (p : Process) (rest : list Action) :
  enabled p = None ->
  getenv "LTC_ENABLE_DYNAMIC_SHAPES" p = None ->
  fst (enableDynamicShape (after_first_call p rest))
  = FLAGS_ltc_enable_dynamic_shapes (after_first_call p rest).
Proof.
  intros Hp Henv. rewrite (later_call_result p rest Hp).
  unfold env_toggle. now rewrite Henv.
Qed.

(** [Output::operator==] returns [false] on every pair. *)
Lemma Output_eq_false (o : Output) (rhs : Value) : snd (Output_eq o rhs) = false.
Proof. reflexivity. Qed.

(** C1 on the code: take a node and two pointers to copies of it at
    any two addresses (so the two nodes agree on every member, and
    [hash()] answers the same on both), and the same index on both sides.
    [Output::operator==] returns [false]; the comparison written after
    [return false;] would have returned [true]. *)
Theorem Output_eq_equal_hashes_false (A : Node) (a b : Z) (i : size_t) :
  snd (Output_eq {| Output_node := {| address := a; get := A |}; Output_index := i |}
                 {| Value_node := {| address := b; get := A |}; Value_index := i |})
  = false
  /\ Output_eq_unreachable
       {| Output_node := {| address := a; get := A |}; Output_index := i |}
       {| Value_node := {| address := b; get := A |}; Value_index := i |}
     = true.
Proof.
  split; [reflexivity|].
  unfold Output_eq_unreachable. cbn [Output_node Value_node Output_index Value_index get].
  rewrite !bool_decide_eq_true_2; reflexivity.
Qed.

(** C7: an [Output] and a [Value] that point to the same node with the
    same index have the same hash, which is [HashCombine] of the node's
    [hash()] and [Hash] of the index. *)
Theorem Output_hash_Value_hash (n : NodePtr) (i : size_t) :
  Output_hash {| Output_node := n; Output_index := i |}
  = Value_hash {| Value_node := n; Value_index := i |}
  /\ Output_hash {| Output_node := n; Output_index := i |}
     = HashCombine (Node_hash (get n)) (Hash i).
Proof. split; reflexivity. Qed.

(** C4: [ClearNodeList] leaves in [last_node_list] what [node_list] held
    (and nothing of the old [last_node_list]), leaves [node_list] empty,
    and touches nothing else; with an empty [node_list] the new
    [last_node_list] is empty, and after two flushes in a row it is empty. *)
Theorem ClearNodeList_moves_current_to_last (w : World) :
  last_node_list (ClearNodeList w) = node_list w
  /\ node_list (ClearNodeList w) = []
  /\ process (ClearNodeList w) = process w
  /\ debug (ClearNodeList w) = debug w
  /\ (forall p d old,
        last_node_list (ClearNodeList (mkWorld p d [] old)) = []
        /\ node_list (ClearNodeList (mkWorld p d [] old)) = [])
  /\ last_node_list (ClearNodeList (ClearNodeList w)) = []
  /\ node_list (ClearNodeList (ClearNodeList w)) = [].
Proof. repeat split. Qed.

(** Both constructors read the counter and leave the two vectors alone. *)
Lemma construct_reads_counter (c : Ctor) (w : World) :
  node_list_index_ (fst (construct c w)) = NextNodeListIndex w.
Proof. destruct c; reflexivity. Qed.

Lemma construct_keeps_node_list (c : Ctor) (w : World) :
  node_list (snd (construct c w)) = node_list w.
Proof. destruct c; reflexivity. Qed.

Lemma construct_keeps_last_node_list (c : Ctor) (w : World) :
  last_node_list (snd (construct c w)) = last_node_list w.
Proof. destruct c; reflexivity. Qed.

Lemma construct_and_push_unfold (a : Z) (c : Ctor) (w : World) :
  construct_and_push a c w
  = ({| address := a; get := fst (construct c w) |},
     PushIntoNodeList {| address := a; get := fst (construct c w) |}
       (snd (construct c w))).
Proof. unfold construct_and_push. now destruct (construct c w). Qed.

Lemma trace_cons (a : Z) (c : Ctor) (cs : list (Z * Ctor)) (w : World) :
  trace ((a, c) :: cs) w
  = (fst (construct_and_push a c w) :: fst (trace cs (snd (construct_and_push a c w))),
     snd (trace cs (snd (construct_and_push a c w)))).
Proof.
  simpl. destruct (construct_and_push a c w) as [ptr w1]. simpl.
  now destruct (trace cs w1).
Qed.

Lemma trace_length (cs : list (Z * Ctor)) (w : World) :
  length (fst (trace cs w)) = length cs.
Proof.
  revert w. induction cs as [|[a c] cs IH]; intros w; [reflexivity|].
  rewrite trace_cons. simpl. now rewrite IH.
Qed.

Lemma trace_node_list (cs : list (Z * Ctor)) (w : World) :
  node_list (snd (trace cs w)) = node_list w ++ fst (trace cs w).
Proof.
  revert w. induction cs as [|[a c] cs IH]; intros w.
  - simpl. now rewrite app_nil_r.
  - rewrite trace_cons. cbn [fst snd]. rewrite IH.
    rewrite construct_and_push_unfold. cbn [fst snd PushIntoNodeList node_list].
    rewrite construct_keeps_node_list. now rewrite <- app_assoc.
Qed.

Lemma trace_last_node_list (cs : list (Z * Ctor)) (w : World) :
  last_node_list (snd (trace cs w)) = last_node_list w.
Proof.
  revert w. induction cs as [|[a c] cs IH]; intros w; [reflexivity|].
  rewrite trace_cons. cbn [fst snd]. rewrite IH.
  rewrite construct_and_push_unfold. cbn [fst snd PushIntoNodeList last_node_list].
  apply construct_keeps_last_node_list.
Qed.

Lemma trace_indices (cs : list (Z * Ctor)) (w : World) :
  (fun ptr => node_list_index_ (get ptr)) <$> fst (trace cs w)
  = N.of_nat <$> seq (length (node_list w)) (length cs).
Proof.
  revert w. induction cs as [|[a c] cs IH]; intros w; [reflexivity|].
  rewrite trace_cons. cbn [fst snd length seq fmap list_fmap]. f_equal.
  - rewrite construct_and_push_unfold. cbn [fst get].
    apply construct_reads_counter.
  - rewrite IH. rewrite construct_and_push_unfold.
    cbn [fst snd PushIntoNodeList node_list].
    rewrite construct_keeps_node_list, length_app. simpl.
    now rewrite Nat.add_1_r.
Qed.

(** C3, as the code has it: a constructor takes its [node_list_index_]
    from [NextNodeListIndex] (the length of [node_list]) and does not
    touch [node_list]; [PushIntoNodeList] appends at the end.  When every
    construction is followed by the push of the new node, then from an
    empty [node_list] (the start of the process, or right after a flush)
    the nodes built by [cs] get the indices 0..N-1 in construction order,
    and [node_list] holds exactly those nodes, in that order. *)
Theorem trace_index_is_position (c : Ctor) (cs : list (Z * Ctor)) (w : World) :
  node_list_index_ (fst (construct c w)) = N.of_nat (length (node_list w))
  /\ node_list (snd (construct c w)) = node_list w
  /\ (forall ptr, node_list (PushIntoNodeList ptr w) = node_list w ++ [ptr])
  /\ node_list (snd (trace cs (ClearNodeList w))) = fst (trace cs (ClearNodeList w))
  /\ (fun ptr => node_list_index_ (get ptr)) <$> fst (trace cs (ClearNodeList w))
     = N.of_nat <$> seq 0 (length cs)
  /\ (forall env d,
        node_list (snd (trace cs (initial env d))) = fst (trace cs (initial env d))
        /\ (fun ptr => node_list_index_ (get ptr)) <$> fst (trace cs (initial env d))
           = N.of_nat <$> seq 0 (length cs)).
Proof.
  split; [apply construct_reads_counter|].
  split; [apply construct_keeps_node_list|].
  split; [reflexivity|].
  split; [now rewrite trace_node_list|].
  split; [now rewrite trace_indices|].
  intros env d. split; [now rewrite trace_node_list | now rewrite trace_indices].
Qed.

(** C2, as the code has it: the constructor that derives the node hash
    calls the callback with [!enableDynamicShape()], so with dynamic
    shapes off [node_hash_] is the hash with sizes and with dynamic shapes
    on it is the hash without sizes.  The constructor that is given a node
    hash stores it as it is; its two dag hashes are the callback at [false]
    and at [true]. *)
Theorem node_hash_follows_dynamic_shape (op : OpKind) (num_outputs : size_t)
    (fn : bool -> hash_t) (h : hash_t) (w : World) :
  (fst (enableDynamicShape (process w)) = false ->
     node_hash_ (fst (Node_derived op num_outputs fn w))
     = dag_hash_with_sizes_ (fst (Node_derived op num_outputs fn w)))
  /\ (fst (enableDynamicShape (process w)) = true ->
     node_hash_ (fst (Node_derived op num_outputs fn w))
     = dag_hash_without_sizes_ (fst (Node_derived op num_outputs fn w)))
  /\ dag_hash_without_sizes_ (fst (Node_derived op num_outputs fn w)) = fn false
  /\ dag_hash_with_sizes_ (fst (Node_derived op num_outputs fn w)) = fn true
  /\ node_hash_ (fst (Node_explicit op num_outputs h fn w)) = h
  /\ dag_hash_without_sizes_ (fst (Node_explicit op num_outputs h fn w)) = fn false
  /\ dag_hash_with_sizes_ (fst (Node_explicit op num_outputs h fn w)) = fn true.
Proof.
  unfold Node_derived.
  destruct (enableDynamicShape (process w)) as [dynamic p] eqn:E.
  cbn [fst node_hash_ dag_hash_with_sizes_ dag_hash_without_sizes_].
  split; [now intros ->|]. split; [now intros ->|].
  repeat split.
Qed.

(** C8: two nodes built by the deriving constructor from the same op,
    output count and callback, in worlds where [enableDynamicShape()]
    answers the same, agree on [node_hash_], on [dag_hash_without_sizes_]
    and on [dag_hash_with_sizes_]. *)
Theorem Node_derived_hashes_deterministic (op : OpKind) (num_outputs : size_t)
    (fn : bool -> hash_t) (w1 w2 : World) :
  fst (enableDynamicShape (process w1)) = fst (enableDynamicShape (process w2)) ->
  node_hash_ (fst (Node_derived op num_outputs fn w1))
  = node_hash_ (fst (Node_derived op num_outputs fn w2))
  /\ dag_hash_without_sizes_ (fst (Node_derived op num_outputs fn w1))
     = dag_hash_without_sizes_ (fst (Node_derived op num_outputs fn w2))
  /\ dag_hash_with_sizes_ (fst (Node_derived op num_outputs fn w1))
     = dag_hash_with_sizes_ (fst (Node_derived op num_outputs fn w2)).
Proof.
  intros Hmode. unfold Node_derived.
  destruct (enableDynamicShape (process w1)) as [d1 p1].
  destruct (enableDynamicShape (process w2)) as [d2 p2].
  cbn [fst] in Hmode. subst d2. repeat split.
Qed.

(** *** Further properties of the dynamic-shape switch *)

Lemma call_after_first_is_noop (p : Process) (b : bool) :
  enabled p = Some b -> snd (enableDynamicShape p) = p.
Proof.
  intros Hp. destruct p as [env flag st]. simpl in Hp. subst st. reflexivity.
Qed.

Lemma run_without_calls (acts : list Action) (p : Process) (b : bool) :
  enabled p = Some b -> run acts p = run (without_calls acts) p.
Proof.
  revert p. induction acts as [|a acts IH]; intros p Hp; [reflexivity|].
  destruct a; unfold without_calls; cbn [run foldl];
    try (rewrite filter_cons_True by reflexivity; cbn [foldl];
         apply IH; now apply step_enabled_Some).
  rewrite filter_cons_False by discriminate.
  cbn [step]. rewrite (call_after_first_is_noop p b Hp). now apply IH.
Qed.

(** X1: once the first call has run, further calls of
    [enableDynamicShape] are without effect: striking every call from
    what follows leaves the final state, and so the answer of a call made
    then, as they were. *)
Theorem calls_after_the_first_change_nothing (p : Process) (rest : list Action) :
  after_first_call p rest = after_first_call p (without_calls rest)
  /\ fst (enableDynamicShape (after_first_call p rest))
     = fst (enableDynamicShape (after_first_call p (without_calls rest))).
Proof.
  assert (Hrun : after_first_call p rest = after_first_call p (without_calls rest)).
  { unfold after_first_call.
    apply (run_without_calls rest _
             (match enabled p with Some b => b | None => env_toggle p end)).
    reflexivity. }
  split; [exact Hrun | now rewrite Hrun].
Qed.

Lemma construct_and_push_process (a : Z) (c : Ctor) (w : World) :
  process (snd (construct_and_push a c w)) = process (snd (construct c w)).
Proof. rewrite construct_and_push_unfold. reflexivity. Qed.

Lemma trace_step_enabled_Some (o : TraceOp) (w : World) (b : bool) :
  enabled (process w) = Some b -> enabled (process (trace_step o w)) = Some b.
Proof.
  intros Hw. destruct o as [a c| |act]; cbn [trace_step].
  - rewrite construct_and_push_process. destruct c; cbn; [exact Hw | now rewrite Hw].
  - exact Hw.
  - cbn. now apply step_enabled_Some.
Qed.

Lemma session_enabled_Some (ops : list TraceOp) (w : World) (b : bool) :
  enabled (process w) = Some b -> enabled (process (session ops w)) = Some b.
Proof.
  revert w. induction ops as [|o ops IH]; intros w Hw; [exact Hw|].
  cbn [session foldl]. apply IH. now apply trace_step_enabled_Some.
Qed.

Lemma Node_derived_node_hash (op : OpKind) (num_outputs : size_t)
    (fn : bool -> hash_t) (w : World) :
  node_hash_ (fst (Node_derived op num_outputs fn w))
  = fn (negb (fst (enableDynamicShape (process w)))).
Proof.
  unfold Node_derived. now destruct (enableDynamicShape (process w)).
Qed.

(** X2: the first node built with a derived node hash settles the
    environment part of the switch for good.  Whatever the client does
    afterwards (builds, flushes, writes to the environment or the flag),
    a later derived node hash is the callback at
    [!(toggle-at-that-first-construction || flag-now)]. *)
Theorem first_derived_node_settles_env_toggle
    (a : Z) (op op' : OpKind) (num_outputs num_outputs' : size_t)
    (fn fn' : bool -> hash_t) (ops : list TraceOp) (w : World) :
  enabled (process w) = None ->
  node_hash_ (fst (Node_derived op' num_outputs' fn'
                     (session ops (snd (construct_and_push a (Derived op num_outputs fn) w)))))
  = fn' (negb (env_toggle (process w)
               || FLAGS_ltc_enable_dynamic_shapes
                    (process (session ops
                       (snd (construct_and_push a (Derived op num_outputs fn) w)))))).
Proof.
  intros Hw. rewrite Node_derived_node_hash.
  assert (Hst : enabled (process (session ops
                  (snd (construct_and_push a (Derived op num_outputs fn) w))))
                = Some (env_toggle (process w))).
  { apply session_enabled_Some. rewrite construct_and_push_process.
    cbn. now rewrite Hw. }
  revert Hst.
  generalize (process (session ops
                (snd (construct_and_push a (Derived op num_outputs fn) w)))).
  intros q Hq. unfold enableDynamicShape. cbn [fst]. now rewrite Hq.
Qed.

(** X3: the constructor that is given its node hash does not look at the
    switch, so it settles nothing: when the variable is defined after
    such a node was built and before the first derived one, that derived
    node hash is the callback at [false], the hash without sizes. *)
Theorem explicit_node_leaves_env_toggle_open
    (a : Z) (op op' : OpKind) (num_outputs num_outputs' : size_t) (h : hash_t)
    (fn fn' : bool -> hash_t) (v : string) (w : World) :
  enabled (process w) = None ->
  node_hash_ (fst (Node_derived op' num_outputs' fn'
                     (trace_step (Proc (Setenv "LTC_ENABLE_DYNAMIC_SHAPES" v))
                        (snd (construct_and_push a (Explicit op num_outputs h fn) w)))))
  = fn' false.
Proof.
  intros Hw. rewrite Node_derived_node_hash.
  rewrite construct_and_push_unfold.
  cbn [trace_step with_process process snd construct Node_explicit PushIntoNodeList step].
  unfold enableDynamicShape, env_toggle, getenv. cbn [fst enabled environ].
  rewrite Hw. now rewrite lookup_insert_eq.
Qed.

(** *** Further properties of the trace buffer *)

Lemma construct_all_cons (c : Ctor) (cs : list Ctor) (w : World) :
  construct_all (c :: cs) w
  = (fst (construct c w) :: fst (construct_all cs (snd (construct c w))),
     snd (construct_all cs (snd (construct c w)))).
Proof.
  simpl. destruct (construct c w) as [n w1]. simpl.
  now destruct (construct_all cs w1).
Qed.

(** X4: constructors alone never move the buffer.  However many nodes
    are built without a push in between, [node_list] and
    [last_node_list] stay as they were and every one of the nodes gets
    the same index, the length of [node_list]. *)
Theorem constructions_without_push_share_index (cs : list Ctor) (w : World) :
  node_list (snd (construct_all cs w)) = node_list w
  /\ last_node_list (snd (construct_all cs w)) = last_node_list w
  /\ length (fst (construct_all cs w)) = length cs
  /\ Forall (fun n => node_list_index_ n = NextNodeListIndex w)
       (fst (construct_all cs w)).
Proof.
  revert w. induction cs as [|c cs IH]; intros w.
  - repeat split. constructor.
  - rewrite construct_all_cons. cbn [fst snd length].
    destruct (IH (snd (construct c w))) as (Hn & Hl & Hlen & Hall).
    rewrite Hn, Hl, Hlen, construct_keeps_node_list, construct_keeps_last_node_list.
    repeat split. constructor; [apply construct_reads_counter|].
    unfold NextNodeListIndex in *. now rewrite construct_keeps_node_list in Hall.
Qed.

Lemma indexed_by_position_nil : indexed_by_position [].
Proof. reflexivity. Qed.

Lemma indexed_by_position_snoc (l : list NodePtr) (ptr : NodePtr) :
  indexed_by_position l ->
  node_list_index_ (get ptr) = N.of_nat (length l) ->
  indexed_by_position (l ++ [ptr]).
Proof.
  unfold indexed_by_position, indices. intros Hl Hptr.
  rewrite fmap_app, length_app, Hl. cbn [length fmap list_fmap].
  rewrite Nat.add_1_r, seq_S, fmap_app. cbn. now rewrite Hptr.
Qed.

Lemma trace_step_indexed (o : TraceOp) (w : World) :
  indexed_by_position (node_list w) ->
  indexed_by_position (last_node_list w) ->
  indexed_by_position (node_list (trace_step o w))
  /\ indexed_by_position (last_node_list (trace_step o w)).
Proof.
  intros Hn Hl. destruct o as [a c| |act]; cbn [trace_step].
  - rewrite construct_and_push_unfold.
    cbn [snd PushIntoNodeList node_list last_node_list].
    rewrite construct_keeps_node_list, construct_keeps_last_node_list.
    split; [|exact Hl]. apply indexed_by_position_snoc; [exact Hn|].
    cbn [get]. apply construct_reads_counter.
  - split; [apply indexed_by_position_nil | exact Hn].
  - split; assumption.
Qed.

(** X5: in a client that pushes every node it builds, both buffers stay
    indexed by position through any run of builds, flushes and writes to
    the switch: the node at position [k] of [node_list], and of
    [last_node_list], has [node_list_index_] equal to [k]. *)
Theorem session_keeps_buffers_indexed (ops : list TraceOp) (w : World) :
  indexed_by_position (node_list w) ->
  indexed_by_position (last_node_list w) ->
  indexed_by_position (node_list (session ops w))
  /\ indexed_by_position (last_node_list (session ops w)).
Proof.
  revert w. induction ops as [|o ops IH]; intros w Hn Hl; [now split|].
  cbn [session foldl].
  destruct (trace_step_indexed o w Hn Hl) as [Hn' Hl'].
  now apply IH.
Qed.

(** X6: a session between two flushes.  After the closing flush
    [last_node_list] holds the nodes of that session and no others, in
    construction order, [node_list] is empty, and the next node built
    gets index 0 again. *)
Theorem flush_hands_over_the_session (cs : list (Z * Ctor)) (c : Ctor) (w : World) :
  last_node_list (ClearNodeList (snd (trace cs (ClearNodeList w))))
  = fst (trace cs (ClearNodeList w))
  /\ length (last_node_list (ClearNodeList (snd (trace cs (ClearNodeList w)))))
     = length cs
  /\ node_list (ClearNodeList (snd (trace cs (ClearNodeList w)))) = []
  /\ node_list_index_
       (fst (construct c (ClearNodeList (snd (trace cs (ClearNodeList w))))))
     = 0%N.
Proof.
  assert (Hlast : last_node_list (ClearNodeList (snd (trace cs (ClearNodeList w))))
                  = fst (trace cs (ClearNodeList w))).
  { cbn [ClearNodeList swap_node_lists clear_last_node_list last_node_list node_list].
    now rewrite trace_node_list. }
  split; [exact Hlast|]. split; [now rewrite Hlast, trace_length|].
  split; [reflexivity|].
  now rewrite construct_reads_counter.
Qed.

(** *** Diagnostic strings *)


End IR.

(** *** Concrete runs *)

(** Hashes as numbers, no debug metadata, [hash()] answering [node_hash_]. *)
Definition no_metadata (d : unit) : unit := d.

Definition add : OpKind := {| op := "aten::add" |}.

Definition sized_hash (with_sizes : bool) : N :=
  if with_sizes then 11%N else 22%N.

Definition toggle_set : gmap string string :=
  {[ "LTC_ENABLE_DYNAMIC_SHAPES" := "0" ]}.

Definition static_world : @World N unit unit := initial ∅ tt.

Definition dynamic_world : @World N unit unit := initial toggle_set tt.

Lemma enableDynamicShape_env_or_flag_witness :
  fst (enableDynamicShape (start toggle_set)) = true
  /\ fst (enableDynamicShape
            (after_first_call (start toggle_set)
               [Unsetenv "LTC_ENABLE_DYNAMIC_SHAPES"; Call; SetFlag false]))
     = true.
Proof.
  apply (enableDynamicShape_env_or_flag (start toggle_set)
           [Unsetenv "LTC_ENABLE_DYNAMIC_SHAPES"; Call; SetFlag false]).
  - reflexivity.
  - exists "0". vm_compute. reflexivity.
Defined.

Lemma enableDynamicShape_env_absent_at_first_call_witness :
  fst (enableDynamicShape
         (after_first_call (start ∅)
            [Setenv "LTC_ENABLE_DYNAMIC_SHAPES" "1"; Call; SetFlag true; SetFlag false]))
  = false.
Proof.
  rewrite (enableDynamicShape_env_absent_at_first_call (start ∅)
             [Setenv "LTC_ENABLE_DYNAMIC_SHAPES" "1"; Call; SetFlag true; SetFlag false]).
  - reflexivity.
  - reflexivity.
  - vm_compute. reflexivity.
Defined.

(** C2 as stated fails: with dynamic shapes off the derived node hash is
    not the hash without sizes, with dynamic shapes on it is not the hash
    with sizes, and a node hash that is handed in need not be either. *)
Lemma node_hash_is_not_as_claimed :
  (fst (enableDynamicShape (process static_world)) = false
   /\ node_hash_ (fst (Node_derived no_metadata add 1%N sized_hash static_world))
      <> dag_hash_without_sizes_ (fst (Node_derived no_metadata add 1%N sized_hash static_world)))
  /\ (fst (enableDynamicShape (process dynamic_world)) = true
      /\ node_hash_ (fst (Node_derived no_metadata add 1%N sized_hash dynamic_world))
         <> dag_hash_with_sizes_ (fst (Node_derived no_metadata add 1%N sized_hash dynamic_world)))
  /\ node_hash_ (fst (Node_explicit no_metadata add 1%N 33%N sized_hash static_world))
     <> dag_hash_without_sizes_ (fst (Node_explicit no_metadata add 1%N 33%N sized_hash static_world)).
Proof. vm_compute. repeat split; discriminate. Qed.

Lemma node_hash_follows_dynamic_shape_witness :
  node_hash_ (fst (Node_derived no_metadata add 1%N sized_hash static_world))
  = dag_hash_with_sizes_ (fst (Node_derived no_metadata add 1%N sized_hash static_world))
  /\ node_hash_ (fst (Node_derived no_metadata add 1%N sized_hash dynamic_world))
     = dag_hash_without_sizes_ (fst (Node_derived no_metadata add 1%N sized_hash dynamic_world)).
Proof.
  split.
  - apply (proj1 (node_hash_follows_dynamic_shape no_metadata add 1%N sized_hash 33%N static_world)).
    vm_compute. reflexivity.
  - apply (proj1 (proj2 (node_hash_follows_dynamic_shape no_metadata add 1%N sized_hash 33%N dynamic_world))).
    vm_compute. reflexivity.
Defined.

(** A world in which one node has been built and pushed already. *)
Definition one_node_traced : @World N unit unit :=
  snd (trace no_metadata [(4096%Z, Derived add 1%N sized_hash)] static_world).

Lemma Node_derived_hashes_deterministic_witness :
  node_hash_ (fst (Node_derived no_metadata add 1%N sized_hash static_world))
  = node_hash_ (fst (Node_derived no_metadata add 1%N sized_hash one_node_traced))
  /\ dag_hash_without_sizes_ (fst (Node_derived no_metadata add 1%N sized_hash static_world))
     = dag_hash_without_sizes_ (fst (Node_derived no_metadata add 1%N sized_hash one_node_traced))
  /\ dag_hash_with_sizes_ (fst (Node_derived no_metadata add 1%N sized_hash static_world))
     = dag_hash_with_sizes_ (fst (Node_derived no_metadata add 1%N sized_hash one_node_traced)).
Proof.
  apply (Node_derived_hashes_deterministic no_metadata add 1%N sized_hash
           static_world one_node_traced).
  vm_compute. reflexivity.
Defined.

(** C3 as stated fails on the constructors alone: two nodes built one
    after the other in a fresh process both get index 0, and the buffer
    holds neither. *)
Lemma constructors_do_not_append :
  node_list (snd (construct_all no_metadata
                    [Derived add 1%N sized_hash; Derived add 1%N sized_hash] static_world))
  = []
  /\ node_list_index_ <$> fst (construct_all no_metadata
                    [Derived add 1%N sized_hash; Derived add 1%N sized_hash] static_world)
     = [0%N; 0%N]
  /\ node_list_index_ <$> fst (construct_all no_metadata
                    [Derived add 1%N sized_hash; Derived add 1%N sized_hash] static_world)
     <> N.of_nat <$> seq 0 2.
Proof. vm_compute. repeat split; discriminate. Qed.

(** The two nodes of the scenario, built and pushed one after the other,
    compared through an [Output] and a [Value]. *)
Example Output_eq_scenario :
  let ptrs := fst (trace no_metadata
                     [(4096%Z, Explicit add 1%N 7%N sized_hash);
                      (8192%Z, Explicit add 1%N 7%N sized_hash)] static_world) in
  match ptrs with
  | [A; B] =>
      address A <> address B
      /\ node_hash_ (get A) = node_hash_ (get B)
      /\ snd (Output_eq node_hash_ {| Output_node := A; Output_index := 0%N |}
                {| Value_node := B; Value_index := 0%N |}) = false
      /\ Output_eq_unreachable node_hash_ {| Output_node := A; Output_index := 0%N |}
           {| Value_node := B; Value_index := 0%N |} = true
  | _ => False
  end.
Proof. vm_compute. repeat split; discriminate. Qed.

(** *** Concrete runs for the further properties *)

Lemma first_derived_node_settles_env_toggle_witness :
  node_hash_ (fst (Node_derived no_metadata add 2%N sized_hash
                     (session no_metadata
                        [Proc (Setenv "LTC_ENABLE_DYNAMIC_SHAPES" "1");
                         Build 8192%Z (Explicit add 1%N 33%N sized_hash);
                         Flush]
                        (snd (construct_and_push no_metadata 4096%Z
                                (Derived add 1%N sized_hash) static_world)))))
  = 11%N.
Proof.
  rewrite (first_derived_node_settles_env_toggle no_metadata 4096%Z add add
             1%N 2%N sized_hash sized_hash
             [Proc (Setenv "LTC_ENABLE_DYNAMIC_SHAPES" "1");
              Build 8192%Z (Explicit add 1%N 33%N sized_hash);
              Flush]
             static_world).
  - vm_compute. reflexivity.
  - reflexivity.
Defined.

Lemma explicit_node_leaves_env_toggle_open_witness :
  node_hash_ (fst (Node_derived no_metadata add 2%N sized_hash
                     (trace_step no_metadata
                        (Proc (Setenv "LTC_ENABLE_DYNAMIC_SHAPES" "1"))
                        (snd (construct_and_push no_metadata 4096%Z
                                (Explicit add 1%N 33%N sized_hash) static_world)))))
  = 22%N.
Proof.
  rewrite (explicit_node_leaves_env_toggle_open no_metadata 4096%Z add add
             1%N 2%N 33%N sized_hash sized_hash "1" static_world).
  - reflexivity.
  - reflexivity.
Defined.

Definition three_builds_one_flush : list (@TraceOp N) :=
  [Build 4096%Z (Derived add 1%N sized_hash);
   Build 8192%Z (Explicit add 1%N 33%N sized_hash);
   Flush;
   Build 12288%Z (Derived add 2%N sized_hash)].

Lemma session_keeps_buffers_indexed_witness :
  indexed_by_position
    (node_list (session no_metadata three_builds_one_flush static_world))
  /\ indexed_by_position
       (last_node_list (session no_metadata three_builds_one_flush static_world)).
Proof.
  apply (session_keeps_buffers_indexed no_metadata three_builds_one_flush static_world).
  - reflexivity.
  - reflexivity.
Defined.

(** Accessors that return the members, an operator that is printed as its
    name, no scope and no frames. *)
Definition no_scope (m : unit) : string := EmptyString.

Definition no_frames (f : unit) : string := EmptyString.

Definition add_node : @NodePtr N unit :=
  {| address := 4096%Z;
     get := {| op_ := add;
               num_outputs_ := 2%N;
               node_hash_ := 11%N;
               dag_hash_without_sizes_ := 22%N;
               dag_hash_with_sizes_ := 11%N;
               metadata_ := tt;
               node_list_index_ := 0%N |} |}.


Example Output_ToString_add_node :
  Output_ToString op_ num_outputs_ op no_scope no_metadata no_frames
    {| Output_node := add_node; Output_index := 1%N |}
  = "aten::add, num_outputs=2, index=1".
Proof. vm_compute. reflexivity. Qed.

End Lazy.

(** ** namespace at::native *)
Module Native.

Definition int64_t : Type := Z.

Section FlashAttentionBackwardNested.

(** What a defined tensor refers to, the type [double], and what an
    operator throws: none of them is looked into here. *)
Context {TensorImpl : Type} {double : Type} {Error : Type}.

(** [at::Tensor]: a handle that refers to a tensor or to none ([Tensor{}]). *)
Definition Tensor : Type := option TensorImpl.

Definition undefined_tensor : Tensor := None.

(** [Tensor::defined()] *)
Definition defined (t : Tensor) : bool :=
  match t with
  | Some _ => true
  | None => false
  end.

(** Arguments of [preprocessing::sdpa_nested_preprocessing_backward], in
    the order of its declaration in [NestedTensorTransformerUtils.h]. *)
Record PreprocessingArgs : Type := mkPreprocessingArgs {
  pre_grad_out_ : Tensor;
  pre_query : Tensor;
  pre_key : Tensor;
  pre_value : Tensor;
  pre_out : Tensor;
  pre_cumulative_sequence_length_q : Tensor;
  pre_cumulative_sequence_length_kv : Tensor;
  pre_max_seqlen_batch_q : int64_t;
  pre_max_seqlen_batch_kv : int64_t
}.

(** Arguments of [at::_flash_attention_backward], in call order. *)
Record KernelArgs : Type := mkKernelArgs {
  k_grad_out : Tensor;
  k_query : Tensor;
  k_key : Tensor;
  k_value : Tensor;
  k_out : Tensor;
  k_logsumexp : Tensor;
  k_cumulative_sequence_length_q : Tensor;
  k_cumulative_sequence_length_k : Tensor;
  k_max_seqlen_batch_q : int64_t;
  k_max_seqlen_batch_k : int64_t;
  k_dropout_p : double;
  k_is_causal : bool;
  k_philox_seed : int64_t;
  k_philox_offset : int64_t;
  k_scale : option double
}.

(** Arguments of [preprocessing::sdpa_nested_postprocessing_backward]. *)
Record PostprocessingArgs : Type := mkPostprocessingArgs {
  post_query : Tensor;
  post_key : Tensor;
  post_value : Tensor;
  post_grad_q_buffer : Tensor;
  post_grad_k_buffer : Tensor;
  post_grad_v_buffer : Tensor
}.

(** The three operators the entry point calls.  Each returns its tuple or
    throws. *)
Variable sdpa_nested_preprocessing_backward :
  PreprocessingArgs -> Error + (Tensor * Tensor * Tensor * Tensor * Tensor).
Variable _flash_attention_backward :
  KernelArgs -> Error + (Tensor * Tensor * Tensor).
Variable sdpa_nested_postprocessing_backward :
  PostprocessingArgs -> Error + (Tensor * Tensor * Tensor).

(** A call made by the entry point, with what it was given. *)
Inductive Invocation : Type :=
| Preprocessing (args : PreprocessingArgs)
| Kernel (args : KernelArgs)
| Postprocessing (args : PostprocessingArgs).

(** A computation that logs the operator calls it makes, in order, and
    ends with a value or with what an operator threw. *)
Definition M (A : Type) : Type := list Invocation * (Error + A).

#[local] Instance M_ret : MRet M := fun A a => ([], inr a).

#[local] Instance M_bind : MBind M := fun A B k m =>
  match m with
  | (calls, inl e) => (calls, inl e)
  | (calls, inr a) => let '(calls', r) := k a in (calls ++ calls', r)
  end.

Definition invoke {Args A : Type} (tag : Args -> Invocation)
    (f : Args -> Error + A) (args : Args) : M A :=
  ([tag args], f args).

(** [_scaled_dot_product_flash_attention_backward_nested] *)
Definition _scaled_dot_product_flash_attention_backward_nested
    (grad_out_ query key value out logsumexp : Tensor)
    (cumulative_sequence_length_q cumulative_sequence_length_k : Tensor)
    (max_seqlen_batch_q max_seqlen_batch_k : int64_t)
    (dropout_p : double) (is_causal : bool)
    (philox_seed philox_offset : int64_t) (scale : option double)
  : M (Tensor * Tensor * Tensor) :=
  if negb (defined grad_out_) then
    mret (undefined_tensor, undefined_tensor, undefined_tensor)
  else
    '(grad_out_buffer_reshaped, query_buffer_reshaped, key_buffer_reshaped,
      value_buffer_reshaped, output_buffer_reshaped) ←
      invoke Preprocessing sdpa_nested_preprocessing_backward
        {| pre_grad_out_ := grad_out_;
           pre_query := query;
           pre_key := key;
           pre_value := value;
           pre_out := out;
           pre_cumulative_sequence_length_q := cumulative_sequence_length_q;
           pre_cumulative_sequence_length_kv := cumulative_sequence_length_k;
           pre_max_seqlen_batch_q := max_seqlen_batch_q;
           pre_max_seqlen_batch_kv := max_seqlen_batch_k |};
    '(grad_q, grad_k, grad_v) ←
      invoke Kernel _flash_attention_backward
        {| k_grad_out := grad_out_buffer_reshaped;
           k_query := query_buffer_reshaped;
           k_key := key_buffer_reshaped;
           k_value := value_buffer_reshaped;
           k_out := output_buffer_reshaped;
           k_logsumexp := logsumexp;
           k_cumulative_sequence_length_q := cumulative_sequence_length_q;
           k_cumulative_sequence_length_k := cumulative_sequence_length_k;
           k_max_seqlen_batch_q := max_seqlen_batch_q;
           k_max_seqlen_batch_k := max_seqlen_batch_k;
           k_dropout_p := dropout_p;
           k_is_causal := is_causal;
           k_philox_seed := philox_seed;
           k_philox_offset := philox_offset;
           k_scale := scale |};
    invoke Postprocessing sdpa_nested_postprocessing_backward
      {| post_query := query;
         post_key := key;
         post_value := value;
         post_grad_q_buffer := grad_q;
         post_grad_k_buffer := grad_k;
         post_grad_v_buffer := grad_v |}.

(** The argument lists of the three calls, as the entry point writes
    them. *)
Definition preprocessing_call
    (grad_out_ query key value out : Tensor)
    (cumulative_sequence_length_q cumulative_sequence_length_k : Tensor)
    (max_seqlen_batch_q max_seqlen_batch_k : int64_t) : PreprocessingArgs :=
  {| pre_grad_out_ := grad_out_;
     pre_query := query;
     pre_key := key;
     pre_value := value;
     pre_out := out;
     pre_cumulative_sequence_length_q := cumulative_sequence_length_q;
     pre_cumulative_sequence_length_kv := cumulative_sequence_length_k;
     pre_max_seqlen_batch_q := max_seqlen_batch_q;
     pre_max_seqlen_batch_kv := max_seqlen_batch_k |}.

Definition kernel_call
    (buffers : Tensor * Tensor * Tensor * Tensor * Tensor) (logsumexp : Tensor)
    (cumulative_sequence_length_q cumulative_sequence_length_k : Tensor)
    (max_seqlen_batch_q max_seqlen_batch_k : int64_t)
    (dropout_p : double) (is_causal : bool)
    (philox_seed philox_offset : int64_t) (scale : option double) : KernelArgs :=
  let '(grad_out_buffer_reshaped, query_buffer_reshaped, key_buffer_reshaped,
        value_buffer_reshaped, output_buffer_reshaped) := buffers in
  {| k_grad_out := grad_out_buffer_reshaped;
     k_query := query_buffer_reshaped;
     k_key := key_buffer_reshaped;
     k_value := value_buffer_reshaped;
     k_out := output_buffer_reshaped;
     k_logsumexp := logsumexp;
     k_cumulative_sequence_length_q := cumulative_sequence_length_q;
     k_cumulative_sequence_length_k := cumulative_sequence_length_k;
     k_max_seqlen_batch_q := max_seqlen_batch_q;
     k_max_seqlen_batch_k := max_seqlen_batch_k;
     k_dropout_p := dropout_p;
     k_is_causal := is_causal;
     k_philox_seed := philox_seed;
     k_philox_offset := philox_offset;
     k_scale := scale |}.

Definition postprocessing_call (query key value : Tensor)
    (grads : Tensor * Tensor * Tensor) : PostprocessingArgs :=
  let '(grad_q, grad_k, grad_v) := grads in
  {| post_query := query;
     post_key := key;
     post_value := value;
     post_grad_q_buffer := grad_q;
     post_grad_k_buffer := grad_k;
     post_grad_v_buffer := grad_v |}.

(** *** Properties *)

(** C5: with an undefined [grad_out_] the entry point returns three
    undefined tensors and its log of operator calls is empty: neither the
    preprocessing nor the kernel (nor the postprocessing) is invoked. *)
Theorem undefined_grad_out_is_a_no_op
    (grad_out_ query key value out logsumexp : Tensor)
    (cumulative_sequence_length_q cumulative_sequence_length_k : Tensor)
    (max_seqlen_batch_q max_seqlen_batch_k : int64_t)
    (dropout_p : double) (is_causal : bool)
    (philox_seed philox_offset : int64_t) (scale : option double) :
  defined grad_out_ = false ->
  _scaled_dot_product_flash_attention_backward_nested
    grad_out_ query key value out logsumexp
    cumulative_sequence_length_q cumulative_sequence_length_k
    max_seqlen_batch_q max_seqlen_batch_k
    dropout_p is_causal philox_seed philox_offset scale
  = ([], inr (undefined_tensor, undefined_tensor, undefined_tensor))
  /\ defined undefined_tensor = false.
Proof.
  intros Hundef. split; [|reflexivity].
  unfold _scaled_dot_product_flash_attention_backward_nested.
  now rewrite Hundef.
Qed.

(** C10: with a defined [grad_out_], and when the preprocessing returns
    its five buffers, the calls are the preprocessing on [grad_out_],
    [query], [key], [value], [out], the two offset tensors and the two
    maximum lengths, and then the kernel on the five buffers followed by
    [logsumexp], the two offset tensors, the two maximum lengths,
    [dropout_p], [is_causal], [philox_seed], [philox_offset] and [scale]
    exactly as the entry point received them.  The postprocessing follows
    when the kernel returns. *)
Theorem defined_grad_out_forwards_to_kernel
    (grad_out_ query key value out logsumexp : Tensor)
    (cumulative_sequence_length_q cumulative_sequence_length_k : Tensor)
    (max_seqlen_batch_q max_seqlen_batch_k : int64_t)
    (dropout_p : double) (is_causal : bool)
    (philox_seed philox_offset : int64_t) (scale : option double)
    (grad_out_buffer query_buffer key_buffer value_buffer output_buffer : Tensor) :
  defined grad_out_ = true ->
  sdpa_nested_preprocessing_backward
    {| pre_grad_out_ := grad_out_;
       pre_query := query;
       pre_key := key;
       pre_value := value;
       pre_out := out;
       pre_cumulative_sequence_length_q := cumulative_sequence_length_q;
       pre_cumulative_sequence_length_kv := cumulative_sequence_length_k;
       pre_max_seqlen_batch_q := max_seqlen_batch_q;
       pre_max_seqlen_batch_kv := max_seqlen_batch_k |}
  = inr (grad_out_buffer, query_buffer, key_buffer, value_buffer, output_buffer) ->
  fst (_scaled_dot_product_flash_attention_backward_nested
         grad_out_ query key value out logsumexp
         cumulative_sequence_length_q cumulative_sequence_length_k
         max_seqlen_batch_q max_seqlen_batch_k
         dropout_p is_causal philox_seed philox_offset scale)
  = Preprocessing
      {| pre_grad_out_ := grad_out_;
         pre_query := query;
         pre_key := key;
         pre_value := value;
         pre_out := out;
         pre_cumulative_sequence_length_q := cumulative_sequence_length_q;
         pre_cumulative_sequence_length_kv := cumulative_sequence_length_k;
         pre_max_seqlen_batch_q := max_seqlen_batch_q;
         pre_max_seqlen_batch_kv := max_seqlen_batch_k |}
    :: Kernel
         {| k_grad_out := grad_out_buffer;
            k_query := query_buffer;
            k_key := key_buffer;
            k_value := value_buffer;
            k_out := output_buffer;
            k_logsumexp := logsumexp;
            k_cumulative_sequence_length_q := cumulative_sequence_length_q;
            k_cumulative_sequence_length_k := cumulative_sequence_length_k;
            k_max_seqlen_batch_q := max_seqlen_batch_q;
            k_max_seqlen_batch_k := max_seqlen_batch_k;
            k_dropout_p := dropout_p;
            k_is_causal := is_causal;
            k_philox_seed := philox_seed;
            k_philox_offset := philox_offset;
            k_scale := scale |}
    :: match _flash_attention_backward
               {| k_grad_out := grad_out_buffer;
                  k_query := query_buffer;
                  k_key := key_buffer;
                  k_value := value_buffer;
                  k_out := output_buffer;
                  k_logsumexp := logsumexp;
                  k_cumulative_sequence_length_q := cumulative_sequence_length_q;
                  k_cumulative_sequence_length_k := cumulative_sequence_length_k;
                  k_max_seqlen_batch_q := max_seqlen_batch_q;
                  k_max_seqlen_batch_k := max_seqlen_batch_k;
                  k_dropout_p := dropout_p;
                  k_is_causal := is_causal;
                  k_philox_seed := philox_seed;
                  k_philox_offset := philox_offset;
                  k_scale := scale |}
       with
       | inl _ => []
       | inr (grad_q, grad_k, grad_v) =>
           [Postprocessing
              {| post_query := query;
                 post_key := key;
                 post_value := value;
                 post_grad_q_buffer := grad_q;
                 post_grad_k_buffer := grad_k;
                 post_grad_v_buffer := grad_v |}]
       end.
Proof.
  intros Hdef Hpre.
  unfold _scaled_dot_product_flash_attention_backward_nested.
  rewrite Hdef. cbn [negb].
  unfold mbind, M_bind, invoke. rewrite Hpre.
  destruct (_flash_attention_backward _) as [e|[[grad_q grad_k] grad_v]];
    reflexivity.
Qed.

(** The entry point with a defined [grad_out_], written with the three
    argument lists. *)
Lemma defined_grad_out_unfold
    (grad_out_ query key value out logsumexp : Tensor)
    (cumulative_sequence_length_q cumulative_sequence_length_k : Tensor)
    (max_seqlen_batch_q max_seqlen_batch_k : int64_t)
    (dropout_p : double) (is_causal : bool)
    (philox_seed philox_offset : int64_t) (scale : option double) :
  defined grad_out_ = true ->
  _scaled_dot_product_flash_attention_backward_nested
    grad_out_ query key value out logsumexp
    cumulative_sequence_length_q cumulative_sequence_length_k
    max_seqlen_batch_q max_seqlen_batch_k
    dropout_p is_causal philox_seed philox_offset scale
  = (buffers ←
       invoke Preprocessing sdpa_nested_preprocessing_backward
         (preprocessing_call grad_out_ query key value out
            cumulative_sequence_length_q cumulative_sequence_length_k
            max_seqlen_batch_q max_seqlen_batch_k);
     grads ←
       invoke Kernel _flash_attention_backward
         (kernel_call buffers logsumexp
            cumulative_sequence_length_q cumulative_sequence_length_k
            max_seqlen_batch_q max_seqlen_batch_k
            dropout_p is_causal philox_seed philox_offset scale);
     invoke Postprocessing sdpa_nested_postprocessing_backward
       (postprocessing_call query key value grads)).
Proof.
  intros Hdef. unfold _scaled_dot_product_flash_attention_backward_nested.
  rewrite Hdef. cbn [negb]. unfold mbind, M_bind, invoke, preprocessing_call.
  destruct (sdpa_nested_preprocessing_backward _) as [e|[[[[g q] k] v] o]];
    [reflexivity|].
  cbn [kernel_call].
  destruct (_flash_attention_backward _) as [e|[[gq gk] gv]]; reflexivity.
Qed.

(** X8: when the preprocessing throws, the entry point ends with that
    very error after that one call: the kernel and the postprocessing are
    not invoked. *)
Theorem preprocessing_error_stops_the_entry_point
    (grad_out_ query key value out logsumexp : Tensor)
    (cumulative_sequence_length_q cumulative_sequence_length_k : Tensor)
    (max_seqlen_batch_q max_seqlen_batch_k : int64_t)
    (dropout_p : double) (is_causal : bool)
    (philox_seed philox_offset : int64_t) (scale : option double) (e : Error) :
  defined grad_out_ = true ->
  sdpa_nested_preprocessing_backward
    (preprocessing_call grad_out_ query key value out
       cumulative_sequence_length_q cumulative_sequence_length_k
       max_seqlen_batch_q max_seqlen_batch_k)
  = inl e ->
  _scaled_dot_product_flash_attention_backward_nested
    grad_out_ query key value out logsumexp
    cumulative_sequence_length_q cumulative_sequence_length_k
    max_seqlen_batch_q max_seqlen_batch_k
    dropout_p is_causal philox_seed philox_offset scale
  = ([Preprocessing
        (preprocessing_call grad_out_ query key value out
           cumulative_sequence_length_q cumulative_sequence_length_k
           max_seqlen_batch_q max_seqlen_batch_k)],
     inl e).
Proof.
  intros Hdef Hpre. rewrite defined_grad_out_unfold by exact Hdef.
  unfold mbind, M_bind, invoke. now rewrite Hpre.
Qed.

(** X9: when the preprocessing returns and the kernel throws, the entry
    point ends with the kernel's error after those two calls: the
    postprocessing is not invoked. *)
Theorem kernel_error_stops_the_entry_point
    (grad_out_ query key value out logsumexp : Tensor)
    (cumulative_sequence_length_q cumulative_sequence_length_k : Tensor)
    (max_seqlen_batch_q max_seqlen_batch_k : int64_t)
    (dropout_p : double) (is_causal : bool)
    (philox_seed philox_offset : int64_t) (scale : option double)
    (buffers : Tensor * Tensor * Tensor * Tensor * Tensor) (e : Error) :
  defined grad_out_ = true ->
  sdpa_nested_preprocessing_backward
    (preprocessing_call grad_out_ query key value out
       cumulative_sequence_length_q cumulative_sequence_length_k
       max_seqlen_batch_q max_seqlen_batch_k)
  = inr buffers ->
  _flash_attention_backward
    (kernel_call buffers logsumexp
       cumulative_sequence_length_q cumulative_sequence_length_k
       max_seqlen_batch_q max_seqlen_batch_k
       dropout_p is_causal philox_seed philox_offset scale)
  = inl e ->
  _scaled_dot_product_flash_attention_backward_nested
    grad_out_ query key value out logsumexp
    cumulative_sequence_length_q cumulative_sequence_length_k
    max_seqlen_batch_q max_seqlen_batch_k
    dropout_p is_causal philox_seed philox_offset scale
  = ([Preprocessing
        (preprocessing_call grad_out_ query key value out
           cumulative_sequence_length_q cumulative_sequence_length_k
           max_seqlen_batch_q max_seqlen_batch_k);
      Kernel
        (kernel_call buffers logsumexp
           cumulative_sequence_length_q cumulative_sequence_length_k
           max_seqlen_batch_q max_seqlen_batch_k
           dropout_p is_causal philox_seed philox_offset scale)],
     inl e).
Proof.
  intros Hdef Hpre Hk. rewrite defined_grad_out_unfold by exact Hdef.
  unfold mbind, M_bind, invoke. rewrite Hpre, Hk. reflexivity.
Qed.

(** X10: when the preprocessing and the kernel return, the entry point
    returns, value or error, what the postprocessing returns on the
    original [query], [key] and [value] and the three gradients of the
    kernel, after exactly those three calls. *)
Theorem result_is_the_postprocessing_of_the_kernel_gradients
    (grad_out_ query key value out logsumexp : Tensor)
    (cumulative_sequence_length_q cumulative_sequence_length_k : Tensor)
    (max_seqlen_batch_q max_seqlen_batch_k : int64_t)
    (dropout_p : double) (is_causal : bool)
    (philox_seed philox_offset : int64_t) (scale : option double)
    (buffers : Tensor * Tensor * Tensor * Tensor * Tensor)
    (grads : Tensor * Tensor * Tensor) :
  defined grad_out_ = true ->
  sdpa_nested_preprocessing_backward
    (preprocessing_call grad_out_ query key value out
       cumulative_sequence_length_q cumulative_sequence_length_k
       max_seqlen_batch_q max_seqlen_batch_k)
  = inr buffers ->
  _flash_attention_backward
    (kernel_call buffers logsumexp
       cumulative_sequence_length_q cumulative_sequence_length_k
       max_seqlen_batch_q max_seqlen_batch_k
       dropout_p is_causal philox_seed philox_offset scale)
  = inr grads ->
  _scaled_dot_product_flash_attention_backward_nested
    grad_out_ query key value out logsumexp
    cumulative_sequence_length_q cumulative_sequence_length_k
    max_seqlen_batch_q max_seqlen_batch_k
    dropout_p is_causal philox_seed philox_offset scale
  = ([Preprocessing
        (preprocessing_call grad_out_ query key value out
           cumulative_sequence_length_q cumulative_sequence_length_k
           max_seqlen_batch_q max_seqlen_batch_k);
      Kernel
        (kernel_call buffers logsumexp
           cumulative_sequence_length_q cumulative_sequence_length_k
           max_seqlen_batch_q max_seqlen_batch_k
           dropout_p is_causal philox_seed philox_offset scale);
      Postprocessing (postprocessing_call query key value grads)],
     sdpa_nested_postprocessing_backward
       (postprocessing_call query key value grads)).
Proof.
  intros Hdef Hpre Hk. rewrite defined_grad_out_unfold by exact Hdef.
  unfold mbind, M_bind, invoke. rewrite Hpre, Hk. reflexivity.
Qed.

(** X11: the entry point raises no error of its own.  When it ends with
    an error, that error is what the operator it invoked last threw on
    the arguments the log shows. *)
Theorem errors_come_from_the_last_operator
    (grad_out_ query key value out logsumexp : Tensor)
    (cumulative_sequence_length_q cumulative_sequence_length_k : Tensor)
    (max_seqlen_batch_q max_seqlen_batch_k : int64_t)
    (dropout_p : double) (is_causal : bool)
    (philox_seed philox_offset : int64_t) (scale : option double) (e : Error) :
  snd (_scaled_dot_product_flash_attention_backward_nested
         grad_out_ query key value out logsumexp
         cumulative_sequence_length_q cumulative_sequence_length_k
         max_seqlen_batch_q max_seqlen_batch_k
         dropout_p is_causal philox_seed philox_offset scale)
  = inl e ->
  match last (fst (_scaled_dot_product_flash_attention_backward_nested
                     grad_out_ query key value out logsumexp
                     cumulative_sequence_length_q cumulative_sequence_length_k
                     max_seqlen_batch_q max_seqlen_batch_k
                     dropout_p is_causal philox_seed philox_offset scale))
  with
  | Some (Preprocessing a) => sdpa_nested_preprocessing_backward a = inl e
  | Some (Kernel a) => _flash_attention_backward a = inl e
  | Some (Postprocessing a) => sdpa_nested_postprocessing_backward a = inl e
  | None => False
  end.
Proof.
  destruct (defined grad_out_) eqn:Hdef.
  - rewrite defined_grad_out_unfold by exact Hdef.
    unfold mbind, M_bind, invoke.
    destruct (sdpa_nested_preprocessing_backward _) as [e1|buffers] eqn:Hpre;
      [cbn; intros [= <-]; exact Hpre|].
    destruct (_flash_attention_backward _) as [e2|grads] eqn:Hk;
      [cbn; intros [= <-]; exact Hk|].
    cbn. intros Hpost. exact Hpost.
  - unfold _scaled_dot_product_flash_attention_backward_nested.
    rewrite Hdef. cbn. discriminate.
Qed.

(** X12: whatever the operators do, each of them is invoked at most
    once, and in the order preprocessing, kernel, postprocessing: the log
    is an initial piece of such a sequence of three calls. *)
Theorem operators_are_invoked_once_and_in_order
    (grad_out_ query key value out logsumexp : Tensor)
    (cumulative_sequence_length_q cumulative_sequence_length_k : Tensor)
    (max_seqlen_batch_q max_seqlen_batch_k : int64_t)
    (dropout_p : double) (is_causal : bool)
    (philox_seed philox_offset : int64_t) (scale : option double) :
  exists a b c,
    fst (_scaled_dot_product_flash_attention_backward_nested
           grad_out_ query key value out logsumexp
           cumulative_sequence_length_q cumulative_sequence_length_k
           max_seqlen_batch_q max_seqlen_batch_k
           dropout_p is_causal philox_seed philox_offset scale)
    `prefix_of` [Preprocessing a; Kernel b; Postprocessing c].
Proof.
  pose (a := preprocessing_call grad_out_ query key value out
               cumulative_sequence_length_q cumulative_sequence_length_k
               max_seqlen_batch_q max_seqlen_batch_k).
  pose (b0 := kernel_call (out, out, out, out, out) logsumexp
                cumulative_sequence_length_q cumulative_sequence_length_k
                max_seqlen_batch_q max_seqlen_batch_k
                dropout_p is_causal philox_seed philox_offset scale).
  pose (c0 := postprocessing_call query key value (out, out, out)).
  destruct (defined grad_out_) eqn:Hdef.
  - rewrite defined_grad_out_unfold by exact Hdef.
    unfold mbind, M_bind, invoke. fold a.
    destruct (sdpa_nested_preprocessing_backward a) as [e1|buffers].
    + exists a, b0, c0. cbn. by eexists.
    + destruct (_flash_attention_backward _) as [e2|grads] eqn:Hk.
      * eexists a, _, c0. cbn. by eexists.
      * eexists a, _, _. cbn. by eexists.
  - exists a, b0, c0.
    unfold _scaled_dot_product_flash_attention_backward_nested.
    rewrite Hdef. cbn. by eexists.
Qed.

End FlashAttentionBackwardNested.

(** *** Concrete runs *)

(** [double] values are stood in for by rationals. *)
Definition one_tenth : QArith_base.Q := QArith_base.Qmake 1 10.

Definition one_eighth : QArith_base.Q := QArith_base.Qmake 1 8.

(** Stand-ins for the three operators: tensors are numbers, packing adds
    100, the kernel hands back the packed query, key and value as
    gradients, and unpacking subtracts 100 again. *)
Definition pack (t : @Tensor nat) : @Tensor nat := (fun n => n + 100) <$> t.

Definition unpack (t : @Tensor nat) : @Tensor nat := (fun n => n - 100) <$> t.

Definition packing_preprocessing (a : @PreprocessingArgs nat)
  : string + (@Tensor nat * @Tensor nat * @Tensor nat * @Tensor nat * @Tensor nat) :=
  inr (pack (pre_grad_out_ a), pack (pre_query a), pack (pre_key a),
       pack (pre_value a), pack (pre_out a)).

Definition echo_kernel (a : @KernelArgs nat QArith_base.Q)
  : string + (@Tensor nat * @Tensor nat * @Tensor nat) :=
  inr (k_query a, k_key a, k_value a).

Definition unpacking_postprocessing (a : @PostprocessingArgs nat)
  : string + (@Tensor nat * @Tensor nat * @Tensor nat) :=
  inr (unpack (post_grad_q_buffer a), unpack (post_grad_k_buffer a),
       unpack (post_grad_v_buffer a)).

Lemma undefined_grad_out_is_a_no_op_witness :
  _scaled_dot_product_flash_attention_backward_nested
    packing_preprocessing echo_kernel unpacking_postprocessing
    None (Some 1) (Some 2) (Some 3) (Some 4) (Some 5) (Some 6) (Some 7)
    16%Z 32%Z one_tenth true 42%Z 0%Z None
  = ([], inr (None, None, None))
  /\ defined (@undefined_tensor nat) = false.
Proof.
  apply (undefined_grad_out_is_a_no_op
           packing_preprocessing echo_kernel unpacking_postprocessing
           None (Some 1) (Some 2) (Some 3) (Some 4) (Some 5) (Some 6) (Some 7)
           16%Z 32%Z one_tenth true 42%Z 0%Z None).
  reflexivity.
Defined.

Lemma defined_grad_out_forwards_to_kernel_witness :
  fst (_scaled_dot_product_flash_attention_backward_nested
         packing_preprocessing echo_kernel unpacking_postprocessing
         (Some 0) (Some 1) (Some 2) (Some 3) (Some 4) (Some 5) (Some 6) (Some 7)
         16%Z 32%Z one_tenth true 42%Z 0%Z (Some one_eighth))
  = [Preprocessing
       {| pre_grad_out_ := Some 0;
          pre_query := Some 1;
          pre_key := Some 2;
          pre_value := Some 3;
          pre_out := Some 4;
          pre_cumulative_sequence_length_q := Some 6;
          pre_cumulative_sequence_length_kv := Some 7;
          pre_max_seqlen_batch_q := 16%Z;
          pre_max_seqlen_batch_kv := 32%Z |};
     Kernel
       {| k_grad_out := Some 100;
          k_query := Some 101;
          k_key := Some 102;
          k_value := Some 103;
          k_out := Some 104;
          k_logsumexp := Some 5;
          k_cumulative_sequence_length_q := Some 6;
          k_cumulative_sequence_length_k := Some 7;
          k_max_seqlen_batch_q := 16%Z;
          k_max_seqlen_batch_k := 32%Z;
          k_dropout_p := one_tenth;
          k_is_causal := true;
          k_philox_seed := 42%Z;
          k_philox_offset := 0%Z;
          k_scale := Some one_eighth |};
     Postprocessing
       {| post_query := Some 1;
          post_key := Some 2;
          post_value := Some 3;
          post_grad_q_buffer := Some 101;
          post_grad_k_buffer := Some 102;
          post_grad_v_buffer := Some 103 |}].
Proof.
  rewrite (defined_grad_out_forwards_to_kernel
             packing_preprocessing echo_kernel unpacking_postprocessing
             (Some 0) (Some 1) (Some 2) (Some 3) (Some 4) (Some 5) (Some 6) (Some 7)
             16%Z 32%Z one_tenth true 42%Z 0%Z (Some one_eighth)
             (Some 100) (Some 101) (Some 102) (Some 103) (Some 104)).
  - reflexivity.
  - reflexivity.
  - reflexivity.
Defined.

(** *** Concrete runs for the further properties *)

Definition failing_preprocessing (a : @PreprocessingArgs nat)
  : string + (@Tensor nat * @Tensor nat * @Tensor nat * @Tensor nat * @Tensor nat) :=
  inl "preprocessing failed".

Definition failing_kernel (a : @KernelArgs nat QArith_base.Q)
  : string + (@Tensor nat * @Tensor nat * @Tensor nat) :=
  inl "kernel failed".

Lemma preprocessing_error_stops_the_entry_point_witness :
  _scaled_dot_product_flash_attention_backward_nested
    failing_preprocessing echo_kernel unpacking_postprocessing
    (Some 0) (Some 1) (Some 2) (Some 3) (Some 4) (Some 5) (Some 6) (Some 7)
    16%Z 32%Z one_tenth true 42%Z 0%Z None
  = ([Preprocessing
        (preprocessing_call (Some 0) (Some 1) (Some 2) (Some 3) (Some 4)
           (Some 6) (Some 7) 16%Z 32%Z)],
     inl "preprocessing failed").
Proof.
  apply (preprocessing_error_stops_the_entry_point
           failing_preprocessing echo_kernel unpacking_postprocessing
           (Some 0) (Some 1) (Some 2) (Some 3) (Some 4) (Some 5) (Some 6) (Some 7)
           16%Z 32%Z one_tenth true 42%Z 0%Z None).
  - reflexivity.
  - reflexivity.
Defined.

Lemma kernel_error_stops_the_entry_point_witness :
  _scaled_dot_product_flash_attention_backward_nested
    packing_preprocessing failing_kernel unpacking_postprocessing
    (Some 0) (Some 1) (Some 2) (Some 3) (Some 4) (Some 5) (Some 6) (Some 7)
    16%Z 32%Z one_tenth true 42%Z 0%Z None
  = ([Preprocessing
        (preprocessing_call (Some 0) (Some 1) (Some 2) (Some 3) (Some 4)
           (Some 6) (Some 7) 16%Z 32%Z);
      Kernel
        (kernel_call (Some 100, Some 101, Some 102, Some 103, Some 104) (Some 5)
           (Some 6) (Some 7) 16%Z 32%Z one_tenth true 42%Z 0%Z None)],
     inl "kernel failed").
Proof.
  apply (kernel_error_stops_the_entry_point
           packing_preprocessing failing_kernel unpacking_postprocessing
           (Some 0) (Some 1) (Some 2) (Some 3) (Some 4) (Some 5) (Some 6) (Some 7)
           16%Z 32%Z one_tenth true 42%Z 0%Z None
           (Some 100, Some 101, Some 102, Some 103, Some 104)).
  - reflexivity.
  - reflexivity.
  - reflexivity.
Defined.

Lemma result_is_the_postprocessing_of_the_kernel_gradients_witness :
  _scaled_dot_product_flash_attention_backward_nested
    packing_preprocessing echo_kernel unpacking_postprocessing
    (Some 0) (Some 1) (Some 2) (Some 3) (Some 4) (Some 5) (Some 6) (Some 7)
    16%Z 32%Z one_tenth true 42%Z 0%Z None
  = ([Preprocessing
        (preprocessing_call (Some 0) (Some 1) (Some 2) (Some 3) (Some 4)
           (Some 6) (Some 7) 16%Z 32%Z);
      Kernel
        (kernel_call (Some 100, Some 101, Some 102, Some 103, Some 104) (Some 5)
           (Some 6) (Some 7) 16%Z 32%Z one_tenth true 42%Z 0%Z None);
      Postprocessing
        (postprocessing_call (Some 1) (Some 2) (Some 3)
           (Some 101, Some 102, Some 103))],
     inr (Some 1, Some 2, Some 3)).
Proof.
  apply (result_is_the_postprocessing_of_the_kernel_gradients
           packing_preprocessing echo_kernel unpacking_postprocessing
           (Some 0) (Some 1) (Some 2) (Some 3) (Some 4) (Some 5) (Some 6) (Some 7)
           16%Z 32%Z one_tenth true 42%Z 0%Z None
           (Some 100, Some 101, Some 102, Some 103, Some 104)
           (Some 101, Some 102, Some 103)).
  - reflexivity.
  - reflexivity.
  - reflexivity.
Defined.

Lemma errors_come_from_the_last_operator_witness :
  match last (fst (_scaled_dot_product_flash_attention_backward_nested
                     packing_preprocessing failing_kernel unpacking_postprocessing
                     (Some 0) (Some 1) (Some 2) (Some 3) (Some 4) (Some 5)
                     (Some 6) (Some 7) 16%Z 32%Z one_tenth true 42%Z 0%Z None))
  with
  | Some (Preprocessing a) => packing_preprocessing a = inl "kernel failed"
  | Some (Kernel a) => failing_kernel a = inl "kernel failed"
  | Some (Postprocessing a) => unpacking_postprocessing a = inl "kernel failed"
  | None => False
  end.
Proof.
  apply (errors_come_from_the_last_operator
           packing_preprocessing failing_kernel unpacking_postprocessing
           (Some 0) (Some 1) (Some 2) (Some 3) (Some 4) (Some 5) (Some 6) (Some 7)
           16%Z 32%Z one_tenth true 42%Z 0%Z None "kernel failed").
  reflexivity.
Defined.

End Native.
